(** * The WhatsApp session gateway of [server.js], as an event-loop machine

    [server.js] is a Node.js process: every HTTP handler, push-channel
    handler, timer callback and protocol-engine callback runs to its next
    [await] without interruption, and the next task is whatever the event
    loop dispatches.  The embedding follows that shape:

    - the three global objects [connections], [recentMessages] and
      [qrCodes] are finite maps keyed by the session identifier;
    - every [await] splits its function into the part before it and the
      continuation, which is stored in the state as a pending task and
      run when its promise settles;
    - [step] runs one task; the engine, the credential store, the QR
      renderer and the HTTP clients are the environment, which chooses
      the events.

    Map keys are strings of bytes; a JavaScript string is a sequence of
    UTF-16 code units, and the two agree on the ASCII range, the only
    range the code inspects ([/[^0-9]/g]). *)

From Stdlib Require Import ZArith Lia.
From stdpp Require Import gmap strings list fin_maps.

Local Open Scope string_scope.
Local Open Scope list_scope.

(** ** JavaScript values *)

(** The outcome of an awaited promise: [await] returns the value or
    throws the error, of which the code reads [error.message]. *)
Inductive Settled :=
| Resolved (value : string)
| Rejected (message : string).

(** [if (s)] on a string: the empty string is the only falsy string. *)
Definition truthy (s : string) : bool := negb (String.eqb s "").

(** [if (x)] where [x] is a string, [null] or [undefined]. *)
Definition truthy_opt (x : option string) : bool :=
  match x with
  | Some s => truthy s
  | None => false
  end.

(** [msg.key] of the protocol engine: [fromMe] is an optional boolean. *)
Record MessageKey := {
  remoteJid : string;
  fromMe : option bool;
  keyId : string
}.

(** One inbound message record; [payload] stands for the rest of it. *)
Record WAMessage := {
  key : option MessageKey;
  payload : string
}.

(** The argument of a [messages.upsert] event.  [messages] is [None]
    when the field is missing or is not an array
    ([data.messages && Array.isArray(data.messages)] is falsy). *)
Record UpsertData := {
  messages : option (list WAMessage);
  upsertType : string
}.

(** [connection] of a [connection.update] event. *)
Inductive WAConnectionState := connecting | open | close.

(** The argument of a [connection.update] event; [statusCode] is
    [lastDisconnect?.error?.output?.statusCode], [None] for [undefined]. *)
Record ConnectionUpdate := {
  connection : option WAConnectionState;
  statusCode : option Z;
  qr : option string
}.

(** Object literals handed to [res.json] and [emit]. *)
#[local] Unset Elimination Schemes.
Inductive Json :=
| JUndefined
| JBool (b : bool)
| JNum (z : Z)
| JStr (s : string)
| JObj (fields : list (string * Json))
| JMessages (ms : list WAMessage)
| JUpsert (data : UpsertData).
#[local] Set Elimination Schemes.


(** ** The process state *)

(** A sock is named by its allocation number: the n-th object
    [makeWASocket] returned. *)
Definition Sock := nat.

(** What the handlers registered on a sock captured:
    the arguments of the [startWhatsAppConnection] call that made it. *)
Record Closure := {
  cl_sessionId : string;
  cl_socketId : option string
}.

(** Who awaits a [startWhatsAppConnection] promise. *)
Inductive Caller :=
| FromHttp (res : nat)            (* the POST start-session handler *)
| FromPush (socketId : string)    (* the start-session push handler *)
| FromReconnect.                  (* the close branch; the promise is dropped *)

(** A handler suspended at its [await]. *)
Inductive Task :=
| AwaitAuthState (sessionId : string) (socketId : option string) (caller : Caller)
| AwaitDataURL (sock : Sock) (update : ConnectionUpdate)
| AwaitLogout (res : nat) (sessionId : string) (sock : Sock)
| AwaitSendMessage (res : nat).

(** A [setInterval(checkQR, 500)] timer with the variables it closes over. *)
Record Interval := {
  iv_res : nat;
  iv_sessionId : string;
  attempts : nat
}.

Record State := {
  connections : gmap string Sock;
  recentMessages : gmap string (list WAMessage);
  qrCodes : gmap string string;
  socks : list Closure;          (* every sock ever made, by number *)
  users : gmap Sock string;      (* [sock.user.id], where the engine set it *)
  tasks : list Task;
  intervals : list Interval
}.

Definition init : State :=
  {| connections := ∅; recentMessages := ∅; qrCodes := ∅; socks := [];
     users := ∅; tasks := []; intervals := [] |}.

(** What a task does to the outside. *)
Inductive Effect :=
| Reply (res : nat) (status : nat) (body : Json)
| Emit (socketId : string) (event : string) (body : Json)
| CallUseMultiFileAuthState (sessionId : string)
| CallToDataURL (qr : string)
| CallLogout (sock : Sock)
| CallSendMessage (sock : Sock) (jid : string) (text : string).

(** [if (socketId) { io.to(socketId).emit(event, body) }] *)
Definition emit_if (socketId : option string) (event : string) (body : Json)
  : list Effect :=
  match socketId with
  | Some sk => if truthy sk then [Emit sk event body] else []
  | None => []
  end.

(** Assignments to one global, the others kept. *)
Definition set_connections (c : gmap string Sock) (s : State) : State :=
  {| connections := c; recentMessages := recentMessages s; qrCodes := qrCodes s;
     socks := socks s; users := users s; tasks := tasks s;
     intervals := intervals s |}.

Definition set_recentMessages (m : gmap string (list WAMessage)) (s : State) : State :=
  {| connections := connections s; recentMessages := m; qrCodes := qrCodes s;
     socks := socks s; users := users s; tasks := tasks s;
     intervals := intervals s |}.

Definition set_qrCodes (q : gmap string string) (s : State) : State :=
  {| connections := connections s; recentMessages := recentMessages s; qrCodes := q;
     socks := socks s; users := users s; tasks := tasks s;
     intervals := intervals s |}.

Definition set_socks (l : list Closure) (s : State) : State :=
  {| connections := connections s; recentMessages := recentMessages s;
     qrCodes := qrCodes s; socks := l; users := users s; tasks := tasks s;
     intervals := intervals s |}.

Definition set_users (u : gmap Sock string) (s : State) : State :=
  {| connections := connections s; recentMessages := recentMessages s;
     qrCodes := qrCodes s; socks := socks s; users := u; tasks := tasks s;
     intervals := intervals s |}.

Definition set_tasks (t : list Task) (s : State) : State :=
  {| connections := connections s; recentMessages := recentMessages s;
     qrCodes := qrCodes s; socks := socks s; users := users s; tasks := t;
     intervals := intervals s |}.

Definition set_intervals (i : list Interval) (s : State) : State :=
  {| connections := connections s; recentMessages := recentMessages s;
     qrCodes := qrCodes s; socks := socks s; users := users s; tasks := tasks s;
     intervals := i |}.

(** [delete connections[id]; delete qrCodes[id]; delete recentMessages[id]] *)
Definition delete_session (sessionId : string) (s : State) : State :=
  set_recentMessages (delete sessionId (recentMessages s))
    (set_qrCodes (delete sessionId (qrCodes s))
       (set_connections (delete sessionId (connections s)) s)).

(** ** startWhatsAppConnection *)

(** Up to [await useMultiFileAuthState(sessionFolder)]: the call is made
    and the rest of the function waits for it. *)
Definition startWhatsAppConnection (sessionId : string) (socketId : option string)
    (caller : Caller) (s : State) : State * list Effect :=
  (set_tasks (tasks s ++ [AwaitAuthState sessionId socketId caller]) s,
   [CallUseMultiFileAuthState sessionId]).

(** After the await: [makeWASocket], the three [sock.ev.on] registrations,
    [connections[sessionId] = sock; return sock]. *)
Definition startWhatsAppConnection_resume (sessionId : string)
    (socketId : option string) (s : State) : State * Sock :=
  let sock := length (socks s) in
  (set_connections (<[sessionId := sock]> (connections s))
     (set_socks (socks s ++
        [{| cl_sessionId := sessionId; cl_socketId := socketId |}]) s),
   sock).

(** What the awaiting caller does once the promise has settled.  A
    rejection is a failed credential load, or [makeWASocket] throwing:
    either way no sock is stored and the caller sees the error. *)
Definition start_settled (sessionId : string) (socketId : option string)
    (caller : Caller) (r : Settled) (s : State) : State * list Effect :=
  match r with
  | Resolved _ =>
      let s1 := fst (startWhatsAppConnection_resume sessionId socketId s) in
      match caller with
      | FromHttp res =>
          (* let attempts = 0; const checkQR = setInterval(..., 500) *)
          (set_intervals (intervals s1 ++
             [{| iv_res := res; iv_sessionId := sessionId; attempts := 0 |}]) s1,
           [])
      | FromPush sk =>
          (s1, [Emit sk "session-started" (JObj [("success", JBool true)])])
      | FromReconnect => (s1, [])
      end
  | Rejected msg =>
      match caller with
      | FromHttp res => (s, [Reply res 500 (JObj [("error", JStr msg)])])
      | FromPush sk =>
          (s, [Emit sk "session-started"
                 (JObj [("success", JBool false); ("error", JStr msg)])])
      | FromReconnect => (s, [])
      end
  end.

(** ** The handlers registered on a sock *)

Section Server.

(** [DisconnectReason.loggedOut], a constant of the protocol library
    ([@whiskeysockets/baileys]), which is not part of this repository. *)
Variable loggedOut : Z.

(** [statusCode !== DisconnectReason.loggedOut] *)
Definition shouldReconnect (statusCode : option Z) : bool :=
  match statusCode with
  | Some c => negb (Z.eqb c loggedOut)
  | None => true
  end.

Definition json_statusCode (statusCode : option Z) : Json :=
  match statusCode with
  | Some c => JNum c
  | None => JUndefined
  end.

(** [user: sock.user] *)
Definition json_user (s : State) (sock : Sock) : Json :=
  match users s !! sock with
  | Some u => JObj [("id", JStr u)]
  | None => JUndefined
  end.

(** [if (connection === 'open') { ... }] *)
Definition on_open (sock : Sock) (cl : Closure) (s : State) : State * list Effect :=
  (set_qrCodes (delete (cl_sessionId cl) (qrCodes s)) s,
   emit_if (cl_socketId cl) "connection-open"
     (JObj [("user", json_user s sock); ("connected", JBool true)])).

(** [if (connection === 'close') { ... }] *)
Definition on_close (cl : Closure) (update : ConnectionUpdate) (s : State)
  : State * list Effect :=
  let statusCode := statusCode update in
  let shouldReconnect := shouldReconnect statusCode in
  let out := emit_if (cl_socketId cl) "connection-close"
               (JObj [("shouldReconnect", JBool shouldReconnect);
                      ("statusCode", json_statusCode statusCode)]) in
  if negb shouldReconnect then
    (delete_session (cl_sessionId cl) s, out)
  else
    let '(s1, calls) :=
      startWhatsAppConnection (cl_sessionId cl) (cl_socketId cl) FromReconnect s in
    (s1, out ++ calls).

(** The [connection.update] handler after its [if (qr)] block. *)
Definition connection_update_rest (sock : Sock) (cl : Closure)
    (update : ConnectionUpdate) (s : State) : State * list Effect :=
  match connection update with
  | Some open => on_open sock cl s
  | Some close => on_close cl update s
  | _ => (s, [])
  end.

(** The [connection.update] handler from its start: with a QR payload it
    stops at [await qrcode.toDataURL(qr)], without one it runs through. *)
Definition connection_update (sock : Sock) (cl : Closure)
    (update : ConnectionUpdate) (s : State) : State * list Effect :=
  match qr update with
  | Some q =>
      if truthy q then
        (set_tasks (tasks s ++ [AwaitDataURL sock update]) s, [CallToDataURL q])
      else connection_update_rest sock cl update s
  | None => connection_update_rest sock cl update s
  end.

(** The handler resumed with the rendered image: the rest of [if (qr)],
    then the open and close blocks.  A rejected rendering throws out of
    the handler. *)
Definition connection_update_resume (sock : Sock) (cl : Closure)
    (update : ConnectionUpdate) (r : Settled) (s : State) : State * list Effect :=
  match r with
  | Resolved qrCodeDataURL =>
      let s1 := set_qrCodes (<[cl_sessionId cl := qrCodeDataURL]> (qrCodes s)) s in
      let out := emit_if (cl_socketId cl) "qr"
                   (JObj [("qrCode", JStr qrCodeDataURL)]) in
      let '(s2, out2) := connection_update_rest sock cl update s1 in
      (s2, out ++ out2)
  | Rejected _ => (s, [])
  end.

(** [msg => msg.key && !msg.key.fromMe] *)
Definition not_from_me (msg : WAMessage) : bool :=
  match key msg with
  | Some k =>
      match fromMe k with
      | Some true => false
      | _ => true
      end
  | None => false
  end.

(** [a.slice(-n)]: the last [n] elements, in order. *)
Definition slice_last {A} (n : nat) (a : list A) : list A :=
  drop (length a - n) a.

(** [recentMessages[sessionId]] after the [messages.upsert] handler ran on
    [data], given what it held before. *)
Definition upsert_buffer (old : option (list WAMessage)) (data : UpsertData)
  : list WAMessage :=
  let buf := match old with Some b => b | None => [] end in
  match messages data with
  | Some ms =>
      let newMessages := List.filter not_from_me ms in
      if (0 <? length newMessages)%nat then
        let pushed := buf ++ newMessages in
        if (50 <? length pushed)%nat then slice_last 50 pushed else pushed
      else buf
  | None => buf
  end.

(** The [messages.upsert] handler. *)
Definition messages_upsert (cl : Closure) (data : UpsertData) (s : State)
  : State * list Effect :=
  let sessionId := cl_sessionId cl in
  (set_recentMessages
     (<[sessionId := upsert_buffer (recentMessages s !! sessionId) data]>
        (recentMessages s)) s,
   emit_if (cl_socketId cl) "messages" (JUpsert data)).

(** The messages of a batch that the handler keeps. *)
Definition kept (data : UpsertData) : list WAMessage :=
  List.filter not_from_me (default [] (messages data)).


(** ** The HTTP handlers *)

(** GET /api/status/:sessionId, the object given to [res.json]. *)
Definition get_status (sessionId : string) (s : State) : Json :=
  match connections s !! sessionId with
  | Some connection =>
      JObj [("connected", JBool true);
            ("user", match users s !! connection with
                     | Some u => JObj [("id", JStr u)]
                     | None => JObj [("id", JStr "unknown")]
                     end)]
  | None => JObj [("connected", JBool false)]
  end.

(** POST /api/start-session/:sessionId up to its await:
    [startWhatsAppConnection(sessionId)] leaves [socketId] at [null]. *)
Definition post_start_session (res : nat) (sessionId : string) (s : State)
  : State * list Effect :=
  match connections s !! sessionId with
  | Some _ =>
      (s, [Reply res 200
             (JObj [("connected", JBool true);
                    ("message", JStr "Sessão já está ativa")])])
  | None => startWhatsAppConnection sessionId None (FromHttp res) s
  end.


(** The body of the 408 answer. *)
Definition timeout_body : Json :=
  JObj [("error", JStr "Tempo esgotado ao esperar pelo QR code");
        ("connected", JBool false)].

(** One run of the interval callback on what [qrCodes[sessionId]] holds:
    the answer it sends (with [clearInterval]) if any, and [attempts]
    after [attempts++]. *)
Definition checkQR (qrCode : option string) (attempts : nat)
  : option (nat * Json) * nat :=
  match qrCode with
  | Some q =>
      if truthy q then (Some (200, JObj [("qrCode", JStr q)]), S attempts)
      else if (10 <=? attempts)%nat then (Some (408, timeout_body), S attempts)
      else (None, S attempts)
  | None =>
      if (10 <=? attempts)%nat then (Some (408, timeout_body), S attempts)
      else (None, S attempts)
  end.


(** GET /api/messages/:sessionId *)
Definition get_messages (res : nat) (sessionId : string) (s : State)
  : State * list Effect :=
  match connections s !! sessionId with
  | None => (s, [Reply res 404 (JObj [("error", JStr "Sessão não encontrada")])])
  | Some _ =>
      let messages :=
        match recentMessages s !! sessionId with
        | Some b => b
        | None => []
        end in
      (set_recentMessages (<[sessionId := []]> (recentMessages s)) s,
       [Reply res 200 (JObj [("messages", JMessages messages)])])
  end.

(** POST /api/disconnect/:sessionId up to [await sock.logout()]. *)
Definition post_disconnect (res : nat) (sessionId : string) (s : State)
  : State * list Effect :=
  match connections s !! sessionId with
  | None =>
      (s, [Reply res 200
             (JObj [("success", JBool true);
                    ("message", JStr "Sessão já está desconectada")])])
  | Some sock =>
      (set_tasks (tasks s ++ [AwaitLogout res sessionId sock]) s, [CallLogout sock])
  end.

(** After the await: the three deletes and the answer, or the catch. *)
Definition post_disconnect_resume (res : nat) (sessionId : string) (r : Settled)
    (s : State) : State * list Effect :=
  match r with
  | Resolved _ =>
      (delete_session sessionId s, [Reply res 200 (JObj [("success", JBool true)])])
  | Rejected msg => (s, [Reply res 500 (JObj [("error", JStr msg)])])
  end.

(** A character of the class [0-9]. *)
Definition is_digit (c : Ascii.ascii) : bool :=
  ((48 <=? Ascii.nat_of_ascii c) && (Ascii.nat_of_ascii c <=? 57))%nat.

(** [number.replace(/[^0-9]/g, '')] *)
Fixpoint strip_non_digits (number : string) : string :=
  match number with
  | EmptyString => EmptyString
  | String c rest =>
      if is_digit c then String c (strip_non_digits rest)
      else strip_non_digits rest
  end.

Definition formattedNumber (number : string) : string :=
  (strip_non_digits number ++ "@s.whatsapp.net")%string.

(** The answer of the catch block of send-message. *)
Definition send_failure (res : nat) : Effect :=
  Reply res 500 (JObj [("success", JBool false);
                       ("message", JStr "Erro ao enviar mensagem")]).

(** POST /api/send-message/:sessionId up to [await connection.sendMessage].
    [number] is [None] when the body carries no string there:
    [number.replace] then throws a TypeError inside the try block. *)
Definition post_send_message (res : nat) (sessionId : string)
    (number : option string) (message : string) (s : State)
  : State * list Effect :=
  match connections s !! sessionId with
  | None =>
      (s, [Reply res 404 (JObj [("success", JBool false);
                                ("message", JStr "Sessão não encontrada")])])
  | Some connection =>
      match number with
      | Some n =>
          (set_tasks (tasks s ++ [AwaitSendMessage res]) s,
           [CallSendMessage connection (formattedNumber n) message])
      | None => (s, [send_failure res])
      end
  end.

Definition post_send_message_resume (res : nat) (r : Settled) (s : State)
  : State * list Effect :=
  match r with
  | Resolved _ => (s, [Reply res 200 (JObj [("success", JBool true)])])
  | Rejected _ => (s, [send_failure res])
  end.

(** ** The event loop *)

Inductive Event :=
| GetStatus (res : nat) (sessionId : string)
| PostStartSession (res : nat) (sessionId : string)
| GetMessages (res : nat) (sessionId : string)
| PostDisconnect (res : nat) (sessionId : string)
| PostSendMessage (res : nat) (sessionId : string) (number : option string)
    (message : string)
| PushStartSession (socketId : string) (sessionId : string)
| Settle (i : nat) (r : Settled)           (* the promise of pending task [i] settles *)
| IntervalFires (i : nat)                  (* timer [i] calls [checkQR] *)
| OnConnectionUpdate (sock : Sock) (update : ConnectionUpdate)
| OnMessagesUpsert (sock : Sock) (data : UpsertData)
| UserAssigned (sock : Sock) (user : string).  (* the engine sets [sock.user] *)

(** One task of the event loop; [None] when the event cannot occur
    (no such pending task, timer or sock). *)
Definition step (s : State) (e : Event) : option (State * list Effect) :=
  match e with
  | GetStatus res sessionId => Some (s, [Reply res 200 (get_status sessionId s)])
  | PostStartSession res sessionId => Some (post_start_session res sessionId s)
  | GetMessages res sessionId => Some (get_messages res sessionId s)
  | PostDisconnect res sessionId => Some (post_disconnect res sessionId s)
  | PostSendMessage res sessionId number message =>
      Some (post_send_message res sessionId number message s)
  | PushStartSession socketId sessionId =>
      Some (startWhatsAppConnection sessionId (Some socketId) (FromPush socketId) s)
  | Settle i r =>
      match tasks s !! i with
      | Some task =>
          let s0 := set_tasks (delete i (tasks s)) s in
          match task with
          | AwaitAuthState sessionId socketId caller =>
              Some (start_settled sessionId socketId caller r s0)
          | AwaitDataURL sock update =>
              match socks s !! sock with
              | Some cl => Some (connection_update_resume sock cl update r s0)
              | None => None
              end
          | AwaitLogout res sessionId _ =>
              Some (post_disconnect_resume res sessionId r s0)
          | AwaitSendMessage res => Some (post_send_message_resume res r s0)
          end
      | None => None
      end
  | IntervalFires i =>
      match intervals s !! i with
      | Some iv =>
          match checkQR (qrCodes s !! iv_sessionId iv) (attempts iv) with
          | (Some (status, body), _) =>
              Some (set_intervals (delete i (intervals s)) s,
                    [Reply (iv_res iv) status body])
          | (None, n) =>
              Some (set_intervals
                      (<[i := {| iv_res := iv_res iv;
                                 iv_sessionId := iv_sessionId iv;
                                 attempts := n |}]> (intervals s)) s, [])
          end
      | None => None
      end
  | OnConnectionUpdate sock update =>
      match socks s !! sock with
      | Some cl => Some (connection_update sock cl update s)
      | None => None
      end
  | OnMessagesUpsert sock data =>
      match socks s !! sock with
      | Some cl => Some (messages_upsert cl data s)
      | None => None
      end
  | UserAssigned sock user =>
      match socks s !! sock with
      | Some _ => Some (set_users (<[sock := user]> (users s)) s, [])
      | None => None
      end
  end.

(** A run of the loop over a list of events, with everything it did. *)
Fixpoint run (s : State) (es : list Event) : option (State * list Effect) :=
  match es with
  | [] => Some (s, [])
  | e :: es' =>
      match step s e with
      | Some (s1, out1) =>
          match run s1 es' with
          | Some (s2, out2) => Some (s2, out1 ++ out2)
          | None => None
          end
      | None => None
      end
  end.

(** The states the process can be in. *)
Inductive reachable : State -> Prop :=
| reachable_init : reachable init
| reachable_step s e s' out :
    reachable s -> step s e = Some (s', out) -> reachable s'.


(** ** What an event is about *)

(** The session an event concerns: the one a request names, the one a
    sock or a timer was made for. *)
Definition event_session (s : State) (e : Event) : option string :=
  match e with
  | GetStatus _ sessionId
  | PostStartSession _ sessionId
  | GetMessages _ sessionId
  | PostDisconnect _ sessionId
  | PostSendMessage _ sessionId _ _
  | PushStartSession _ sessionId => Some sessionId
  | Settle i _ =>
      match tasks s !! i with
      | Some (AwaitAuthState sessionId _ _) => Some sessionId
      | Some (AwaitDataURL sock _) => cl_sessionId <$> socks s !! sock
      | Some (AwaitLogout _ sessionId _) => Some sessionId
      | Some (AwaitSendMessage _) => None
      | None => None
      end
  | IntervalFires i => iv_sessionId <$> intervals s !! i
  | OnConnectionUpdate sock _
  | OnMessagesUpsert sock _
  | UserAssigned sock _ => cl_sessionId <$> socks s !! sock
  end.

(** The push client an event can emit to: the one that is told how its
    start went, the one a sock was started for. *)
Definition event_push_client (s : State) (e : Event) : option string :=
  match e with
  | Settle i _ =>
      match tasks s !! i with
      | Some (AwaitAuthState _ _ (FromPush socketId)) => Some socketId
      | Some (AwaitDataURL sock _) => socks s !! sock ≫= cl_socketId
      | _ => None
      end
  | OnConnectionUpdate sock _
  | OnMessagesUpsert sock _ => socks s !! sock ≫= cl_socketId
  | _ => None
  end.

(** The two places that run [delete connections[sessionId]]: the close
    branch with the logged-out status, reached at once by an event without
    QR code or after the image of one that has it, and a disconnect whose
    [logout] has returned. *)
Definition tears_down (s : State) (e : Event) (sessionId : string) : Prop :=
  match e with
  | OnConnectionUpdate sock update =>
      (cl_sessionId <$> socks s !! sock) = Some sessionId
      /\ truthy_opt (qr update) = false
      /\ connection update = Some close
      /\ statusCode update = Some loggedOut
  | Settle i r =>
      match tasks s !! i with
      | Some (AwaitDataURL sock update) =>
          (cl_sessionId <$> socks s !! sock) = Some sessionId
          /\ connection update = Some close
          /\ statusCode update = Some loggedOut
          /\ exists url, r = Resolved url
      | Some (AwaitLogout _ sessionId' _) =>
          sessionId' = sessionId /\ exists v, r = Resolved v
      | _ => False
      end
  | _ => False
  end.

(** Every registry entry names a sock that was made for its session. *)
Definition registry_wf (s : State) : Prop :=
  forall sessionId sock,
    connections s !! sessionId = Some sock ->
    exists cl, socks s !! sock = Some cl /\ cl_sessionId cl = sessionId.

End Server.

(** * Sample runs *)

(** A value for [DisconnectReason.loggedOut] to run the loop on. *)
Definition loggedOut_sample : Z := 401.

(** The state a run from the initial state ends in. *)
Definition after (es : list Event) : State :=
  match run loggedOut_sample init es with
  | Some (s, _) => s
  | None => init
  end.

(** One HTTP start request for "s1", and the credential store answering. *)
Definition s1_requested : list Event := [PostStartSession 1 "s1"].
Definition s1_started : list Event := s1_requested ++ [Settle 0 (Resolved "")].

(** The engine then sends a pairing code, and the renderer its image. *)
Definition qr_update : ConnectionUpdate :=
  {| connection := None; statusCode := None; qr := Some "2@pairing" |}.
Definition s1_pairing : list Event :=
  s1_started ++ [OnConnectionUpdate 0 qr_update;
                 Settle 0 (Resolved "data:image/png;base64,AAAA")].

(** Two HTTP start requests for "s1", the second arriving while the first
    waits for the credential store; then both loads complete. *)
Definition two_starts : list Event :=
  [PostStartSession 1 "s1"; PostStartSession 2 "s1";
   Settle 0 (Resolved ""); Settle 0 (Resolved "")].


(** A push client starting "s1". *)
Definition s1_pushed : list Event :=
  [PushStartSession "sockA" "s1"; Settle 0 (Resolved "")].

Definition inbound_message (n : nat) : WAMessage :=
  {| key := Some {| remoteJid := "5511999990000@s.whatsapp.net";
                    fromMe := Some false;
                    keyId := String (Ascii.ascii_of_nat (48 + n)) EmptyString |};
     payload := "text" |}.

Definition own_message : WAMessage :=
  {| key := Some {| remoteJid := "5511999990000@s.whatsapp.net";
                    fromMe := Some true; keyId := "OWN" |};
     payload := "text" |}.

Definition keyless_message : WAMessage := {| key := None; payload := "text" |}.

Definition mixed_batch : UpsertData :=
  {| messages := Some [own_message; inbound_message 0; keyless_message;
                       inbound_message 1];
     upsertType := "notify" |}.

Definition s1_two_messages : list Event :=
  s1_started ++ [OnMessagesUpsert 0 mixed_batch].

Definition logged_out_close : ConnectionUpdate :=
  {| connection := Some close; statusCode := Some loggedOut_sample; qr := None |}.

Definition restart_close : ConnectionUpdate :=
  {| connection := Some close; statusCode := Some 515%Z; qr := None |}.


(** "s1" after its timer has fired ten times without a pairing image. *)
Definition s1_waited : list Event := s1_started ++ replicate 10 (IntervalFires 0).

Definition open_update : ConnectionUpdate :=
  {| connection := Some open; statusCode := None; qr := None |}.

(** * Properties *)

Section Properties.

Variable loggedOut : Z.

(** ** Reading the state after an assignment *)

Lemma delete_session_connections sessionId s :
  connections (delete_session sessionId s) = delete sessionId (connections s).
Proof. reflexivity. Qed.

Lemma delete_session_qrCodes sessionId s :
  qrCodes (delete_session sessionId s) = delete sessionId (qrCodes s).
Proof. reflexivity. Qed.


(** ** Draining the buffer *)

Lemma get_messages_present res sessionId s sock :
  connections s !! sessionId = Some sock ->
  get_messages res sessionId s =
    (set_recentMessages (<[sessionId := []]> (recentMessages s)) s,
     [Reply res 200
        (JObj [("messages",
                JMessages (default [] (recentMessages s !! sessionId)))])]).
Proof.
  intros Hc. unfold get_messages. rewrite Hc.
  destruct (recentMessages s !! sessionId); reflexivity.
Qed.




(** ** Sending *)

Lemma strip_non_digits_filter number :
  String.list_ascii_of_string (strip_non_digits number) =
  List.filter is_digit (String.list_ascii_of_string number).
Proof.
  induction number as [| c rest IH]; simpl; [reflexivity |].
  destruct (is_digit c); simpl; now rewrite IH.
Qed.

Lemma strip_non_digits_only_digits number c :
  In c (String.list_ascii_of_string (strip_non_digits number)) -> is_digit c = true.
Proof.
  rewrite strip_non_digits_filter, filter_In. now intros [_ H].
Qed.

Example formattedNumber_example :
  formattedNumber "+1 (555) 123-4567" = "15551234567@s.whatsapp.net".
Proof. reflexivity. Qed.

(** C7: with a registry entry for the session, send-message hands the sock
    the destination with every character outside 0-9 removed (and no
    other, in order) followed by "@s.whatsapp.net"; the example of the
    spec is normalised as it says; and when the sock's promise rejects,
    whatever the error, the answer is the fixed 500 "Erro ao enviar
    mensagem". *)
Theorem sendMessage_normalizes_destination (res : nat) (sessionId number message : string)
    (s : State) (connection : Sock) :
  connections s !! sessionId = Some connection ->
  step loggedOut s (PostSendMessage res sessionId (Some number) message) =
    Some (set_tasks (tasks s ++ [AwaitSendMessage res]) s,
          [CallSendMessage connection
             (strip_non_digits number ++ "@s.whatsapp.net")%string message])
  /\ String.list_ascii_of_string (strip_non_digits number) =
       List.filter is_digit (String.list_ascii_of_string number)
  /\ formattedNumber "+1 (555) 123-4567" = "15551234567@s.whatsapp.net"
  /\ (forall s' i err,
        tasks s' !! i = Some (AwaitSendMessage res) ->
        step loggedOut s' (Settle i (Rejected err)) =
          Some (set_tasks (delete i (tasks s')) s',
                [Reply res 500 (JObj [("success", JBool false);
                                      ("message", JStr "Erro ao enviar mensagem")])])).
Proof.
  intros Hc. repeat split.
  - simpl. unfold post_send_message. now rewrite Hc.
  - apply strip_non_digits_filter.
  - intros s' i err Ht. simpl. now rewrite Ht.
Qed.

(** ** The message buffer *)

Lemma slice_last_short {A} n (a : list A) : length a <= n -> slice_last n a = a.
Proof.
  intros H. unfold slice_last.
  replace (length a - n) with 0 by lia. reflexivity.
Qed.

Lemma slice_last_length {A} n (a : list A) : length (slice_last n a) <= n.
Proof. unfold slice_last. rewrite length_drop. lia. Qed.


(** Trimming after every push is trimming once at the end. *)
Lemma slice_last_app {A} n (a b : list A) :
  slice_last n (slice_last n a ++ b) = slice_last n (a ++ b).
Proof.
  destruct (decide (length a <= n)) as [Hle | Hgt].
  - now rewrite (slice_last_short n a).
  - unfold slice_last.
    rewrite <- (drop_app_le a b (length a - n)) by lia.
    rewrite drop_drop. f_equal.
    rewrite !length_drop, !length_app. lia.
Qed.

Lemma upsert_buffer_fifo old data :
  length (default [] old) <= 50 ->
  upsert_buffer old data = slice_last 50 (default [] old ++ kept data).
Proof.
  intros Hlen. unfold upsert_buffer, kept.
  change (match old with Some b => b | None => [] end) with (default [] old).
  destruct (messages data) as [ms |]; simpl.
  - destruct (Nat.ltb_spec 0 (length (List.filter not_from_me ms))) as [Hpos | Hzero].
    + destruct (Nat.ltb_spec 50 (length (default [] old ++ List.filter not_from_me ms)));
        [reflexivity | now rewrite slice_last_short].
    + destruct (List.filter not_from_me ms); [| simpl in Hzero; lia].
      rewrite app_nil_r. now rewrite slice_last_short.
  - rewrite app_nil_r. now rewrite slice_last_short.
Qed.

Lemma upsert_buffer_length old data :
  length (default [] old) <= 50 -> length (upsert_buffer old data) <= 50.
Proof. intros H. rewrite upsert_buffer_fifo by exact H. apply slice_last_length. Qed.








(** A series of [messages.upsert] events on one sock. *)
Lemma run_upserts sock cl rest :
  forall data s,
    socks s !! sock = Some cl ->
    length (default [] (recentMessages s !! cl_sessionId cl)) <= 50 ->
    exists s' out,
      run loggedOut s (map (OnMessagesUpsert sock) (data :: rest)) = Some (s', out)
      /\ socks s' = socks s
      /\ recentMessages s' !! cl_sessionId cl =
           Some (slice_last 50
                   (default [] (recentMessages s !! cl_sessionId cl)
                    ++ flat_map kept (data :: rest))).
Proof.
  induction rest as [| data' rest IH]; intros data s Hsock Hlen;
    destruct (messages_upsert cl data s) as [s1 out1] eqn:E;
    assert (H1 : recentMessages s1 !! cl_sessionId cl =
                 Some (upsert_buffer (recentMessages s !! cl_sessionId cl) data))
      by (injection E as <- _; apply lookup_insert_eq);
    assert (Hs1 : socks s1 = socks s) by (injection E as <- _; reflexivity).
  - exists s1, (out1 ++ []).
    cbn [map run step flat_map]. rewrite Hsock, E.
    split; [reflexivity |]. split; [exact Hs1 |].
    rewrite H1, app_nil_r. now rewrite upsert_buffer_fifo.
  - destruct (IH data' s1) as (s' & out & Hrun & Hsocks & Hbuf).
    + now rewrite Hs1.
    + rewrite H1. simpl. now apply upsert_buffer_length.
    + exists s', (out1 ++ out).
      change (map (OnMessagesUpsert sock) (data :: data' :: rest))
        with (OnMessagesUpsert sock data :: map (OnMessagesUpsert sock) (data' :: rest)).
      cbn [run step]. rewrite Hsock, E, Hrun.
      split; [reflexivity |]. split; [congruence |].
      rewrite Hbuf, H1. simpl default.
      rewrite upsert_buffer_fifo by exact Hlen.
      rewrite slice_last_app. cbn [flat_map]. now rewrite <- app_assoc.
Qed.




(** ** Waiting for the pairing image *)

Lemma checkQR_falsy qrCode attempts :
  truthy_opt qrCode = false ->
  checkQR qrCode attempts =
    if (10 <=? attempts)%nat then (Some (408, timeout_body), S attempts)
    else (None, S attempts).
Proof.
  unfold checkQR. destruct qrCode as [q |]; simpl; [| reflexivity].
  now intros ->.
Qed.




(** ** Starting *)

(** The test of start-session reads [connections] only, and
    [startWhatsAppConnection] writes it after its await: for a session
    without an entry, a second request that arrives while the first waits
    for the credential store starts a second connection, and two socks are
    made for the session. *)
Lemma start_guard_misses_pending_start (s : State) (res res' : nat)
    (sessionId : string) :
  connections s !! sessionId = None ->
  exists s2 out,
    run loggedOut s
        [PostStartSession res sessionId; PostStartSession res' sessionId;
         Settle (length (tasks s)) (Resolved "");
         Settle (length (tasks s)) (Resolved "")] = Some (s2, out)
    /\ socks s2 =
         socks s ++ [{| cl_sessionId := sessionId; cl_socketId := None |};
                     {| cl_sessionId := sessionId; cl_socketId := None |}]
    /\ connections s2 !! sessionId = Some (S (length (socks s))).
Proof.
  intros Hc. eexists. eexists. split; [| split].
  - cbn [run step]. unfold post_start_session at 1. rewrite Hc.
    cbn [startWhatsAppConnection]. unfold post_start_session at 1.
    cbn [connections set_tasks]. rewrite Hc.
    cbn [startWhatsAppConnection tasks set_tasks].
    rewrite <- app_assoc. cbn [app].
    rewrite list_lookup_middle by reflexivity.
    rewrite delete_middle.
    cbn [start_settled startWhatsAppConnection_resume fst tasks set_tasks
         set_intervals set_connections set_socks].
    rewrite list_lookup_middle by reflexivity.
    rewrite delete_middle.
    cbn [start_settled startWhatsAppConnection_resume fst].
    reflexivity.
  - cbn. rewrite <- app_assoc. reflexivity.
  - cbn. rewrite length_app, Nat.add_1_r. apply lookup_insert_eq.
Qed.

(** ** Closing and reconnecting *)


Lemma shouldReconnect_other statusCode :
  statusCode <> Some loggedOut -> shouldReconnect loggedOut statusCode = true.
Proof.
  unfold shouldReconnect. destruct statusCode as [c |]; [| reflexivity].
  intros Hne. destruct (Z.eqb_spec c loggedOut); [congruence | reflexivity].
Qed.


(** ** Status *)




(** ** Disconnecting *)


(** ** One task at a time *)

(** Unfolds the handler a step runs and splits on every test it makes. *)
Ltac step_cases H :=
  unfold step, post_start_session, get_messages, post_disconnect,
    post_send_message, start_settled, connection_update_resume,
    connection_update, connection_update_rest, on_open, on_close,
    post_disconnect_resume, post_send_message_resume, messages_upsert,
    startWhatsAppConnection_resume, startWhatsAppConnection in H;
  repeat case_match; simplify_eq; simpl in *.


Lemma shouldReconnect_false statusCode :
  shouldReconnect loggedOut statusCode = false -> statusCode = Some loggedOut.
Proof.
  unfold shouldReconnect. destruct statusCode as [c |]; [| discriminate].
  destruct (Z.eqb_spec c loggedOut); [congruence | discriminate].
Qed.

Lemma checkQR_pending qrCode attempts n :
  checkQR qrCode attempts = (None, n) -> attempts < 10 /\ n = S attempts.
Proof.
  unfold checkQR. destruct qrCode as [q |]; [destruct (truthy q) |];
    destruct (Nat.leb_spec 10 attempts); intros Heq; simplify_eq; auto.
Qed.

Lemma checkQR_answer qrCode attempts status body n :
  checkQR qrCode attempts = (Some (status, body), n) ->
  (status = 200 /\ exists q, qrCode = Some q /\ truthy q = true
                             /\ body = JObj [("qrCode", JStr q)])
  \/ (status = 408 /\ body = timeout_body /\ 10 <= attempts
      /\ truthy_opt qrCode = false).
Proof.
  unfold checkQR. destruct qrCode as [q |]; [destruct (truthy q) eqn:Hq |];
    destruct (Nat.leb_spec 10 attempts); intros Heq; simplify_eq; eauto 10.
Qed.


(** X3: a registry entry disappears only in the close branch with the
    logged-out status, or when the [logout] of a disconnect has returned. *)
Theorem entry_removed_only_by_teardown (s : State) (e : Event) (s' : State)
    (out : list Effect) (sessionId : string) :
  step loggedOut s e = Some (s', out) ->
  is_Some (connections s !! sessionId) ->
  connections s' !! sessionId = None ->
  tears_down loggedOut s e sessionId.
Proof.
  intros H [c Hc] Hn. destruct e; unfold tears_down; step_cases H;
    try congruence;
    repeat match goal with
           | E : ?x = Some _ |- context [?x] => rewrite E
           end; simpl;
    try match goal with
        | Hn : <[?k := _]> _ !! sessionId = None |- _ =>
            destruct (decide (k = sessionId)) as [-> | ?];
            [ rewrite lookup_insert_eq in Hn | rewrite lookup_insert_ne in Hn by done ];
            congruence
        | Hn : delete ?k _ !! sessionId = None |- _ =>
            destruct (decide (k = sessionId)) as [<- | ?];
            [ | rewrite lookup_delete_ne in Hn by done; congruence ]
        end;
    repeat match goal with
           | E : negb _ = true |- _ => apply negb_true_iff, shouldReconnect_false in E
           | E : qr _ = _ |- _ => rewrite E
           | E : truthy _ = _ |- _ => rewrite E
           end;
    simpl; eauto 10.
Qed.

(** ** What every reachable state satisfies *)

Lemma step_registry_wf s e s' out :
  registry_wf s -> step loggedOut s e = Some (s', out) -> registry_wf s'.
Proof.
  intros Hwf H sessionId sock. destruct e; step_cases H;
    try apply Hwf;
    try match goal with
        | |- delete ?k _ !! _ = Some _ -> _ =>
            intros [_ Hc]%lookup_delete_Some; now apply Hwf
        | |- <[?k := _]> _ !! _ = Some _ -> _ =>
            intros [[<- <-] | [_ Hc]]%lookup_insert_Some;
            [ eexists; split; [apply list_lookup_middle; reflexivity | reflexivity]
            | destruct (Hwf _ _ Hc) as (cl & Hcl & <-);
              exists cl; split; [now apply lookup_app_l_Some | reflexivity] ]
        end.
Qed.

(** X1: in every state the process can reach, the sock a registry entry
    holds is one that [startWhatsAppConnection] made for that session. *)
Theorem registry_names_own_socks (s : State) (sessionId : string) (sock : Sock) :
  reachable loggedOut s ->
  connections s !! sessionId = Some sock ->
  exists socketId,
    socks s !! sock = Some {| cl_sessionId := sessionId; cl_socketId := socketId |}.
Proof.
  intros Hreach Hc.
  assert (Hwf : registry_wf s).
  { clear sessionId sock Hc.
    induction Hreach as [| s e s' out _ IH Hstep].
    - intros sessionId sock Hc. simpl in Hc. now rewrite lookup_empty in Hc.
    - eapply step_registry_wf; eassumption. }
  destruct (Hwf _ _ Hc) as ([sid sk] & Hcl & Hsid). simpl in Hsid. subst sid.
  now exists sk.
Qed.

Lemma step_attempts s e s' out :
  Forall (fun iv => attempts iv <= 10) (intervals s) ->
  step loggedOut s e = Some (s', out) ->
  Forall (fun iv => attempts iv <= 10) (intervals s').
Proof.
  intros Hall H. destruct e; step_cases H; try exact Hall.
  - apply Forall_app. split; [exact Hall |]. apply Forall_singleton. simpl. lia.
  - now apply Forall_delete.
  - apply Forall_insert; [exact Hall |]. simpl.
    match goal with E : checkQR _ _ = (None, _) |- _ =>
      apply checkQR_pending in E as [Hlt ->] end.
    lia.
Qed.

(** X4: in every state the process can reach, the counter of every
    start-session timer is at most 10: a timer that has counted to 10
    answers at its next firing and is cleared. *)
Theorem timer_attempts_bounded (s : State) (i : nat) (iv : Interval) :
  reachable loggedOut s ->
  intervals s !! i = Some iv ->
  attempts iv <= 10
  /\ (truthy_opt (qrCodes s !! iv_sessionId iv) = false ->
      attempts iv = 10 ->
      step loggedOut s (IntervalFires i) =
        Some (set_intervals (delete i (intervals s)) s,
              [Reply (iv_res iv) 408 timeout_body])).
Proof.
  intros Hreach Hi. split.
  - assert (Hall : Forall (fun iv => attempts iv <= 10) (intervals s)).
    { clear i iv Hi. induction Hreach as [| s e s' out _ IH Hstep].
      - constructor.
      - eapply step_attempts; eassumption. }
    exact (proj1 (Forall_lookup _ _) Hall i iv Hi).
  - intros Hq Hten. unfold step. rewrite Hi, (checkQR_falsy _ _ Hq), Hten. reflexivity.
Qed.

(** ** What a task sends *)

(** X5: whatever a task emits on the push channel goes to the one client
    its event is tied to, the client that asked for the start or for which
    the sock was started; requests over HTTP and timers emit nothing. *)
Theorem emits_reach_only_the_starter (s : State) (e : Event) (s' : State)
    (out : list Effect) (socketId event : string) (body : Json) :
  step loggedOut s e = Some (s', out) ->
  Emit socketId event body ∈ out ->
  event_push_client s e = Some socketId.
Proof.
  intros H Hin. destruct e; unfold event_push_client; step_cases H;
    unfold emit_if in *; repeat case_match; simplify_eq;
    repeat match goal with
           | E : ?x = Some _ |- context [?x] => rewrite E
           end; simpl;
    decompose_list_elem_of; simplify_eq; done.
Qed.

(** X6: the engine is asked to send only by a send-message request, on the
    sock registered for the session the request names and to the
    normalised address; it is asked to log out only by a disconnect
    request, on the sock registered for its session. *)
Theorem engine_calls_use_registered_sock (s : State) (e : Event) (s' : State)
    (out : list Effect) (sock : Sock) :
  step loggedOut s e = Some (s', out) ->
  (forall jid text,
      CallSendMessage sock jid text ∈ out ->
      exists res sessionId number,
        e = PostSendMessage res sessionId (Some number) text
        /\ connections s !! sessionId = Some sock
        /\ jid = formattedNumber number)
  /\ (CallLogout sock ∈ out ->
      exists res sessionId,
        e = PostDisconnect res sessionId
        /\ connections s !! sessionId = Some sock).
Proof.
  intros H. split; [intros jid text Hin | intros Hin];
    destruct e; step_cases H;
    unfold emit_if, send_failure in *; repeat case_match; simplify_eq;
    decompose_list_elem_of; simplify_eq; eauto 10.
Qed.

(** X13: every HTTP answer has status 200, 404, 408 or 500; 404 is the
    answer to a request that names a session without registry entry, and
    leaves the state as it was; 408 is sent by a start-session timer whose
    counter has reached 10 while no pairing image is stored. *)
Theorem answer_statuses (s : State) (e : Event) (s' : State) (out : list Effect)
    (res status : nat) (body : Json) :
  step loggedOut s e = Some (s', out) ->
  Reply res status body ∈ out ->
  (status = 200 \/ status = 404 \/ status = 408 \/ status = 500)
  /\ (status = 404 ->
      exists sessionId,
        event_session s e = Some sessionId
        /\ connections s !! sessionId = None /\ s' = s)
  /\ (status = 408 ->
      exists i iv,
        e = IntervalFires i /\ intervals s !! i = Some iv
        /\ attempts iv >= 10
        /\ truthy_opt (qrCodes s !! iv_sessionId iv) = false).
Proof.
  intros H Hin. destruct e; step_cases H;
    unfold emit_if, send_failure in *; repeat case_match; simplify_eq;
    decompose_list_elem_of; simplify_eq;
    try match goal with E : checkQR _ _ = (Some _, _) |- _ =>
          apply checkQR_answer in E as [[-> _] | (-> & _ & Hten & Hq)] end;
    (split; [auto | split; intros ?; simplify_eq; eauto 10]).
Qed.

(** ** Normalising a destination *)

Lemma list_ascii_of_string_app (a b : string) :
  String.list_ascii_of_string (a ++ b)%string =
  String.list_ascii_of_string a ++ String.list_ascii_of_string b.
Proof. induction a as [| c a IH]; simpl; [reflexivity | now rewrite IH]. Qed.

Lemma list_ascii_of_string_inj (a b : string) :
  String.list_ascii_of_string a = String.list_ascii_of_string b -> a = b.
Proof.
  intros H. rewrite <- (String.string_of_list_ascii_of_string a),
              <- (String.string_of_list_ascii_of_string b). now rewrite H.
Qed.

Lemma strip_non_digits_app (a b : string) :
  strip_non_digits (a ++ b) = (strip_non_digits a ++ strip_non_digits b)%string.
Proof.
  induction a as [| c a IH]; simpl; [reflexivity |].
  destruct (is_digit c); simpl; now rewrite IH.
Qed.

Lemma strip_non_digits_digits (a : string) :
  forallb is_digit (String.list_ascii_of_string a) = true -> strip_non_digits a = a.
Proof.
  induction a as [| c a IH]; simpl; [reflexivity |].
  intros [Hc Ha]%andb_true_iff. rewrite Hc. now rewrite IH.
Qed.

Lemma strip_non_digits_forallb (a : string) :
  forallb is_digit (String.list_ascii_of_string (strip_non_digits a)) = true.
Proof.
  induction a as [| c a IH]; simpl; [reflexivity |].
  destruct (is_digit c) eqn:Hc; simpl; [now rewrite Hc |]; exact IH.
Qed.

(** X7: the address a destination is sent to depends on its digits alone.
    Normalising is idempotent, goes through concatenation, leaves a
    string of digits as it is and turns a destination without any digit
    into the bare suffix; two destinations get the same address exactly
    when they have the same digits. *)
Theorem formattedNumber_keeps_digits (a b : string) :
  strip_non_digits (strip_non_digits a) = strip_non_digits a
  /\ strip_non_digits (a ++ b) = (strip_non_digits a ++ strip_non_digits b)%string
  /\ (forallb is_digit (String.list_ascii_of_string a) = true ->
      formattedNumber a = (a ++ "@s.whatsapp.net")%string)
  /\ (forallb (fun c => negb (is_digit c)) (String.list_ascii_of_string a) = true ->
      formattedNumber a = "@s.whatsapp.net")
  /\ (formattedNumber a = formattedNumber b <->
      strip_non_digits a = strip_non_digits b).
Proof.
  split; [| split; [| split; [| split]]].
  - apply strip_non_digits_digits, strip_non_digits_forallb.
  - apply strip_non_digits_app.
  - intros Ha. unfold formattedNumber. now rewrite strip_non_digits_digits.
  - intros Ha. unfold formattedNumber.
    assert (strip_non_digits a = EmptyString) as ->; [| reflexivity].
    induction a as [| c a IH]; simpl in *; [reflexivity |].
    apply andb_true_iff in Ha as [Hc Ha]. apply negb_true_iff in Hc.
    rewrite Hc. now apply IH.
  - unfold formattedNumber. split; [| now intros ->].
    intros H. apply list_ascii_of_string_inj.
    apply (f_equal String.list_ascii_of_string) in H.
    rewrite !list_ascii_of_string_app in H. now apply app_inv_tail in H.
Qed.

(** ** How tasks compose *)

Lemma suspended_task_runs_last (s : State) (task : Task) :
  (tasks s ++ [task]) !! length (tasks s) = Some task
  /\ delete (length (tasks s)) (tasks s ++ [task]) = tasks s.
Proof.
  split; [now apply list_lookup_middle |].
  rewrite delete_middle. apply app_nil_r.
Qed.

Lemma run_app (s : State) (es1 es2 : list Event) :
  run loggedOut s (es1 ++ es2) =
    match run loggedOut s es1 with
    | Some (s1, out1) =>
        match run loggedOut s1 es2 with
        | Some (s2, out2) => Some (s2, out1 ++ out2)
        | None => None
        end
    | None => None
    end.
Proof.
  revert s. induction es1 as [| e es1 IH]; intros s; simpl.
  - now destruct (run loggedOut s es2) as [[s2 out2] |].
  - destruct (step loggedOut s e) as [[s1 out1] |]; [| reflexivity].
    rewrite IH. destruct (run loggedOut s1 es1) as [[s2 out2] |]; [| reflexivity].
    destruct (run loggedOut s2 es2) as [[s3 out3] |]; [| reflexivity].
    now rewrite app_assoc.
Qed.

(** X8: a start whose credential load fails changes nothing in the process:
    registry, buffers, pairing images, socks, pending tasks and timers
    after the failure are those before the request, for an HTTP request
    (answered 500 with the error's message) and for a push request (told
    [success: false] with the message). *)
Theorem failed_start_restores_state (s : State) (res : nat)
    (socketId sessionId msg : string) :
  (connections s !! sessionId = None ->
   run loggedOut s [PostStartSession res sessionId;
                    Settle (length (tasks s)) (Rejected msg)] =
     Some (s, [CallUseMultiFileAuthState sessionId;
               Reply res 500 (JObj [("error", JStr msg)])]))
  /\ run loggedOut s [PushStartSession socketId sessionId;
                      Settle (length (tasks s)) (Rejected msg)] =
       Some (s, [CallUseMultiFileAuthState sessionId;
                 Emit socketId "session-started"
                   (JObj [("success", JBool false); ("error", JStr msg)])]).
Proof.
  split; [intros Hc |]; cbn [run step]; [unfold post_start_session; rewrite Hc |];
    cbn [startWhatsAppConnection tasks set_tasks].
  all: match goal with |- context [(tasks ?s0 ++ [?t]) !! _] =>
         destruct (suspended_task_runs_last s0 t) as [-> ->] end.
  all: now destruct s.
Qed.

(** X9: the push-channel start handler makes no test on [connections].
    Whatever the registry holds for the session, once the credentials are
    loaded a new sock is made and stored under the session, the client is
    told [success: true], and nothing is asked of a sock that was
    registered before: it is neither logged out nor told to close. *)
Theorem push_start_replaces_entry (s : State) (socketId sessionId v : string) :
  exists s',
    run loggedOut s [PushStartSession socketId sessionId;
                     Settle (length (tasks s)) (Resolved v)] =
      Some (s', [CallUseMultiFileAuthState sessionId;
                 Emit socketId "session-started" (JObj [("success", JBool true)])])
    /\ socks s' =
         socks s ++ [{| cl_sessionId := sessionId; cl_socketId := Some socketId |}]
    /\ connections s' = <[sessionId := length (socks s)]> (connections s)
    /\ recentMessages s' = recentMessages s
    /\ qrCodes s' = qrCodes s.
Proof.
  eexists. split.
  - cbn [run step startWhatsAppConnection tasks set_tasks].
    destruct (suspended_task_runs_last s
                (AwaitAuthState sessionId (Some socketId) (FromPush socketId)))
      as [-> ->].
    cbn [start_settled]. reflexivity.
  - simpl. auto.
Qed.

(** X10: a QR code that any sock made for the session receives reaches
    the start-session request that waits for it.  Once the image is
    rendered, the next firing of the timer answers 200 with that image and
    clears the timer, whatever its counter. *)
Theorem pairing_image_answers_waiting_start (s : State) (sock : Sock) (cl : Closure)
    (i : nat) (iv : Interval) (update : ConnectionUpdate) (q url : string) :
  socks s !! sock = Some cl ->
  intervals s !! i = Some iv ->
  iv_sessionId iv = cl_sessionId cl ->
  qr update = Some q ->
  truthy q = true ->
  connection update <> Some open ->
  connection update <> Some close ->
  truthy url = true ->
  run loggedOut s [OnConnectionUpdate sock update;
                   Settle (length (tasks s)) (Resolved url);
                   IntervalFires i] =
    Some (set_intervals (delete i (intervals s))
            (set_qrCodes (<[cl_sessionId cl := url]> (qrCodes s)) s),
          [CallToDataURL q]
          ++ emit_if (cl_socketId cl) "qr" (JObj [("qrCode", JStr url)])
          ++ [Reply (iv_res iv) 200 (JObj [("qrCode", JStr url)])]).
Proof.
  intros Hsock Hi Hid Hq Hqt Hopen Hclose Hurl.
  cbn [run step]. rewrite Hsock. unfold connection_update. rewrite Hq, Hqt.
  cbn [tasks set_tasks socks].
  destruct (suspended_task_runs_last s (AwaitDataURL sock update)) as [-> ->].
  rewrite Hsock.
  unfold connection_update_resume, connection_update_rest.
  destruct (connection update) as [[| |] |]; try congruence;
    cbn [intervals set_qrCodes set_tasks qrCodes]; rewrite Hi, Hid, lookup_insert_eq;
    unfold checkQR; rewrite Hurl; cbn [app];
    rewrite app_nil_r; destruct s; reflexivity.
Qed.

(** X14: an open event deletes the pairing image of its session and leaves
    the registry as it is.  A start-session timer that fires next finds no
    image: it keeps waiting, or at a counter of 10 answers 408 with
    [connected: false]. *)
Theorem open_clears_pairing_image (s : State) (sock : Sock) (cl : Closure)
    (i : nat) (iv : Interval) (update : ConnectionUpdate) :
  socks s !! sock = Some cl ->
  intervals s !! i = Some iv ->
  iv_sessionId iv = cl_sessionId cl ->
  connection update = Some open ->
  truthy_opt (qr update) = false ->
  exists s',
    run loggedOut s [OnConnectionUpdate sock update; IntervalFires i] =
      Some (s', emit_if (cl_socketId cl) "connection-open"
                  (JObj [("user", json_user s sock); ("connected", JBool true)])
                ++ (if (10 <=? attempts iv)%nat
                    then [Reply (iv_res iv) 408 timeout_body] else []))
    /\ qrCodes s' !! cl_sessionId cl = None
    /\ connections s' = connections s.
Proof.
  intros Hsock Hi Hid Hopen Hqr.
  assert (Hstep : step loggedOut s (OnConnectionUpdate sock update) =
                    Some (on_open sock cl s)).
  { cbn [step]. rewrite Hsock. unfold connection_update, connection_update_rest.
    rewrite Hopen. destruct (qr update) as [q |]; [| reflexivity].
    simpl in Hqr. now rewrite Hqr. }
  cbn [run]. rewrite Hstep. unfold on_open.
  cbn [step intervals set_qrCodes qrCodes]. rewrite Hi, Hid, lookup_delete_eq.
  unfold checkQR. destruct (10 <=? attempts iv)%nat; eexists;
    (split; [reflexivity |]); simpl; rewrite lookup_delete_eq; auto.
Qed.

Lemma run_upserts_registry (sock : Sock) (batches : list UpsertData) :
  forall s s' out,
    run loggedOut s (map (OnMessagesUpsert sock) batches) = Some (s', out) ->
    connections s' = connections s.
Proof.
  induction batches as [| data rest IH]; intros s s' out; cbn [map run step].
  - now intros [= <- _].
  - destruct (socks s !! sock) as [cl |]; [| discriminate].
    destruct (messages_upsert cl data s) as [s1 out1] eqn:E.
    destruct (run loggedOut s1 _) as [[s2 out2] |] eqn:Hrun; [| discriminate].
    intros [= <- _]. rewrite (IH _ _ _ Hrun). now injection E as <- _.
Qed.

(** X11: between two drains of a registered session, the second returns
    the messages the [messages.upsert] events in between kept, in arrival
    order and cut to the last 50, and leaves the buffer empty. *)
Theorem drain_returns_what_arrived_since (s : State) (sock c : Sock) (cl : Closure)
    (res res' : nat) (batches : list UpsertData) :
  socks s !! sock = Some cl ->
  connections s !! cl_sessionId cl = Some c ->
  exists s' out,
    run loggedOut s (GetMessages res (cl_sessionId cl)
                     :: map (OnMessagesUpsert sock) batches
                     ++ [GetMessages res' (cl_sessionId cl)]) = Some (s', out)
    /\ last out =
         Some (Reply res' 200
                 (JObj [("messages",
                         JMessages (slice_last 50 (flat_map kept batches)))]))
    /\ recentMessages s' !! cl_sessionId cl = Some [].
Proof.
  intros Hsock Hc.
  pose (s1 := set_recentMessages (<[cl_sessionId cl := []]> (recentMessages s)) s).
  assert (H1 : recentMessages s1 !! cl_sessionId cl = Some []) by apply lookup_insert_eq.
  change (GetMessages res (cl_sessionId cl)
          :: map (OnMessagesUpsert sock) batches ++ [GetMessages res' (cl_sessionId cl)])
    with ([GetMessages res (cl_sessionId cl)]
          ++ (map (OnMessagesUpsert sock) batches
              ++ [GetMessages res' (cl_sessionId cl)])).
  rewrite run_app. cbn [run step].
  rewrite (get_messages_present _ _ _ _ Hc). fold s1.
  rewrite run_app.
  assert (Hmid : exists s2 out2,
            run loggedOut s1 (map (OnMessagesUpsert sock) batches) = Some (s2, out2)
            /\ default [] (recentMessages s2 !! cl_sessionId cl) =
                 slice_last 50 (flat_map kept batches)).
  { destruct batches as [| data rest].
    - exists s1, []. split; [reflexivity |]. now rewrite H1.
    - destruct (run_upserts sock cl rest data s1 Hsock)
        as (s2 & out2 & Hrun & _ & Hbuf).
      + rewrite H1. simpl. lia.
      + exists s2, out2. split; [exact Hrun |]. rewrite Hbuf, H1. reflexivity. }
  destruct Hmid as (s2 & out2 & Hrun & Hbuf). rewrite Hrun.
  assert (Hc2 : connections s2 !! cl_sessionId cl = Some c).
  { rewrite (run_upserts_registry _ _ _ _ _ Hrun). exact Hc. }
  cbn [run step]. rewrite (get_messages_present _ _ _ _ Hc2), Hbuf.
  eexists. eexists. split; [reflexivity |]. split.
  - rewrite !app_nil_r, !app_assoc. apply last_snoc.
  - apply lookup_insert_eq.
Qed.

(** X12: a close with a status other than logged-out keeps the session.
    While the reconnect is pending the registry still holds the closed
    sock and the status answer is unchanged; when the credentials are
    loaded the entry is the new sock, and a drain returns the messages
    that were buffered before the close. *)
Theorem reconnect_keeps_buffer (s : State) (sock c : Sock) (cl : Closure)
    (update : ConnectionUpdate) (res : nat) (v : string) :
  socks s !! sock = Some cl ->
  connection update = Some close ->
  truthy_opt (qr update) = false ->
  statusCode update <> Some loggedOut ->
  connections s !! cl_sessionId cl = Some c ->
  (exists s1 out1,
      step loggedOut s (OnConnectionUpdate sock update) = Some (s1, out1)
      /\ connections s1 = connections s
      /\ get_status (cl_sessionId cl) s1 = get_status (cl_sessionId cl) s)
  /\ exists s2 out,
       run loggedOut s [OnConnectionUpdate sock update;
                        Settle (length (tasks s)) (Resolved v);
                        GetMessages res (cl_sessionId cl)] = Some (s2, out)
       /\ last out =
            Some (Reply res 200
                    (JObj [("messages",
                            JMessages (default [] (recentMessages s
                                                   !! cl_sessionId cl)))]))
       /\ connections s2 !! cl_sessionId cl = Some (length (socks s)).
Proof.
  intros Hsock Hclose Hqr Hcode Hc.
  assert (Hstep : step loggedOut s (OnConnectionUpdate sock update) =
                    Some (on_close loggedOut cl update s)).
  { cbn [step]. rewrite Hsock. unfold connection_update, connection_update_rest.
    rewrite Hclose. destruct (qr update) as [q |]; [| reflexivity].
    simpl in Hqr. now rewrite Hqr. }
  assert (Hclosed : on_close loggedOut cl update s =
            (set_tasks (tasks s ++ [AwaitAuthState (cl_sessionId cl) (cl_socketId cl)
                                      FromReconnect]) s,
             emit_if (cl_socketId cl) "connection-close"
               (JObj [("shouldReconnect", JBool true);
                      ("statusCode", json_statusCode (statusCode update))])
             ++ [CallUseMultiFileAuthState (cl_sessionId cl)])).
  { unfold on_close. now rewrite (shouldReconnect_other _ Hcode). }
  split.
  - eexists. eexists. rewrite Hstep, Hclosed. split; [reflexivity |]. split; reflexivity.
  - cbn [run]. rewrite Hstep, Hclosed.
    cbn [step tasks set_tasks].
    destruct (suspended_task_runs_last s
                (AwaitAuthState (cl_sessionId cl) (cl_socketId cl) FromReconnect))
      as [-> ->].
    cbn [start_settled startWhatsAppConnection_resume fst].
    unfold get_messages. cbn [connections set_connections set_socks set_tasks].
    rewrite lookup_insert_eq. cbn [recentMessages set_connections set_socks set_tasks].
    eexists. eexists. split; [reflexivity |]. split.
    + rewrite !app_nil_r, !app_assoc.
      destruct (recentMessages s !! cl_sessionId cl); apply last_snoc.
    + simpl. apply lookup_insert_eq.
Qed.


End Properties.

(** * The properties on the sample runs *)

Lemma after_reachable es : reachable loggedOut_sample (after es).
Proof.
  unfold after.
  assert (H : forall es s, reachable loggedOut_sample s ->
            reachable loggedOut_sample
              match run loggedOut_sample s es with Some (s', _) => s' | None => init end).
  { clear es. induction es as [| e es IH]; intros s Hs; simpl; [exact Hs |].
    destruct (step loggedOut_sample s e) as [[s1 out1] |] eqn:E; [| constructor].
    specialize (IH s1 (reachable_step _ _ _ _ _ Hs E)).
    destruct (run loggedOut_sample s1 es) as [[s2 out2] |]; [exact IH | constructor]. }
  apply H. constructor.
Qed.


(** C1: two start requests for "s1", the second arriving before the
    credential load of the first has completed, both pass the
    [connections[sessionId]] test; [makeWASocket] runs twice and two socks
    with handlers for "s1" exist, none of them closed.  The registry keeps
    the second; the first still receives the engine's events. *)
Theorem concurrent_start_makes_two_socks :
  exists s out,
    run loggedOut_sample init two_starts = Some (s, out)
    /\ socks s = [{| cl_sessionId := "s1"; cl_socketId := None |};
                  {| cl_sessionId := "s1"; cl_socketId := None |}]
    /\ connections s !! "s1" = Some 1
    /\ out = [CallUseMultiFileAuthState "s1"; CallUseMultiFileAuthState "s1"]
    /\ is_Some (step loggedOut_sample s (OnMessagesUpsert 0 mixed_batch)).
Proof.
  eexists. eexists. split; [vm_compute; reflexivity |].
  repeat split. vm_compute. eauto.
Qed.







(** Sending through "s1" to the destination of the spec's example. *)
Lemma sendMessage_normalizes_destination_witness :
  connections (after s1_started) !! "s1" = Some 0
  /\ step loggedOut_sample (after s1_started)
          (PostSendMessage 3 "s1" (Some "+1 (555) 123-4567") "hello") =
       Some (set_tasks (tasks (after s1_started) ++ [AwaitSendMessage 3])
               (after s1_started),
             [CallSendMessage 0 "15551234567@s.whatsapp.net" "hello"]).
Proof.
  split; [reflexivity |].
  exact (proj1 (sendMessage_normalizes_destination loggedOut_sample 3 "s1"
                  "+1 (555) 123-4567" "hello" (after s1_started) 0 eq_refl)).
Defined.





(** * The further properties on the sample runs *)

(** The entry of "s1", started by the push client "sockA". *)
Lemma registry_names_own_socks_witness :
  connections (after s1_pushed) !! "s1" = Some 0
  /\ exists socketId,
       socks (after s1_pushed) !! 0 =
         Some {| cl_sessionId := "s1"; cl_socketId := socketId |}.
Proof.
  split; [reflexivity |].
  exact (registry_names_own_socks loggedOut_sample (after s1_pushed) "s1" 0
           (after_reachable _) eq_refl).
Defined.


(** "s1" closed by a logout. *)
Lemma entry_removed_only_by_teardown_witness :
  step loggedOut_sample (after s1_started) (OnConnectionUpdate 0 logged_out_close) =
    Some (delete_session "s1" (after s1_started), [])
  /\ connections (after s1_started) !! "s1" = Some 0
  /\ connections (delete_session "s1" (after s1_started)) !! "s1" = None
  /\ tears_down loggedOut_sample (after s1_started)
       (OnConnectionUpdate 0 logged_out_close) "s1".
Proof.
  split; [reflexivity |]. split; [reflexivity |]. split; [reflexivity |].
  apply (entry_removed_only_by_teardown loggedOut_sample (after s1_started)
           (OnConnectionUpdate 0 logged_out_close)
           (delete_session "s1" (after s1_started)) [] "s1");
    [reflexivity | exists 0; reflexivity | reflexivity].
Defined.

(** The timer of "s1" after ten firings without an image. *)
Lemma timer_attempts_bounded_witness :
  intervals (after s1_waited) !! 0 =
    Some {| iv_res := 1; iv_sessionId := "s1"; attempts := 10 |}
  /\ truthy_opt (qrCodes (after s1_waited) !! "s1") = false
  /\ 10 <= 10
  /\ step loggedOut_sample (after s1_waited) (IntervalFires 0) =
       Some (set_intervals [] (after s1_waited), [Reply 1 408 timeout_body]).
Proof.
  destruct (timer_attempts_bounded loggedOut_sample (after s1_waited) 0
              {| iv_res := 1; iv_sessionId := "s1"; attempts := 10 |}
              (after_reachable _) eq_refl) as (Hle & Hfire).
  split; [reflexivity |]. split; [reflexivity |]. split; [exact Hle |].
  exact (Hfire eq_refl eq_refl).
Defined.

(** A batch for "s1", started by the push client "sockA". *)
Lemma emits_reach_only_the_starter_witness :
  step loggedOut_sample (after s1_pushed) (OnMessagesUpsert 0 mixed_batch) =
    Some (after (s1_pushed ++ [OnMessagesUpsert 0 mixed_batch]),
          [Emit "sockA" "messages" (JUpsert mixed_batch)])
  /\ event_push_client (after s1_pushed) (OnMessagesUpsert 0 mixed_batch) =
       Some "sockA".
Proof.
  split; [reflexivity |].
  apply (emits_reach_only_the_starter loggedOut_sample (after s1_pushed)
           (OnMessagesUpsert 0 mixed_batch) _ _ "sockA" "messages"
           (JUpsert mixed_batch) eq_refl).
  apply list_elem_of_singleton. reflexivity.
Defined.

(** A send-message request for "s1". *)
Lemma engine_calls_use_registered_sock_witness :
  step loggedOut_sample (after s1_started)
       (PostSendMessage 3 "s1" (Some "+1 (555) 123-4567") "hello") =
    Some (set_tasks [AwaitSendMessage 3] (after s1_started),
          [CallSendMessage 0 "15551234567@s.whatsapp.net" "hello"])
  /\ exists res sessionId number,
       PostSendMessage 3 "s1" (Some "+1 (555) 123-4567") "hello" =
         PostSendMessage res sessionId (Some number) "hello"
       /\ connections (after s1_started) !! sessionId = Some 0
       /\ "15551234567@s.whatsapp.net" = formattedNumber number.
Proof.
  split; [reflexivity |].
  apply (proj1 (engine_calls_use_registered_sock loggedOut_sample (after s1_started)
                  (PostSendMessage 3 "s1" (Some "+1 (555) 123-4567") "hello")
                  _ _ 0 eq_refl)).
  apply list_elem_of_singleton. reflexivity.
Defined.

(** One number written in two ways, and a destination without digits. *)
Lemma formattedNumber_keeps_digits_witness :
  formattedNumber "+55 (11) 99999-0000" = formattedNumber "5511 999990000"
  /\ formattedNumber "5511999990000" = "5511999990000@s.whatsapp.net"
  /\ formattedNumber "abc" = "@s.whatsapp.net".
Proof.
  destruct (formattedNumber_keeps_digits "+55 (11) 99999-0000" "5511 999990000")
    as (_ & _ & _ & _ & Hsame).
  destruct (formattedNumber_keeps_digits "5511999990000" "")
    as (_ & _ & Hdigits & _).
  destruct (formattedNumber_keeps_digits "abc" "") as (_ & _ & _ & Hnone & _).
  split; [apply Hsame; vm_compute; reflexivity |].
  split; [apply Hdigits | apply Hnone]; vm_compute; reflexivity.
Defined.

(** A first start of "s1" whose credential load fails. *)
Lemma failed_start_restores_state_witness :
  connections init !! "s1" = None
  /\ run loggedOut_sample init
         [PostStartSession 1 "s1"; Settle 0 (Rejected "EACCES")] =
       Some (init, [CallUseMultiFileAuthState "s1";
                    Reply 1 500 (JObj [("error", JStr "EACCES")])]).
Proof.
  split; [reflexivity |].
  exact (proj1 (failed_start_restores_state loggedOut_sample init 1 "sockA" "s1"
                  "EACCES") eq_refl).
Defined.

(** The pairing code of "s1" while its start request waits. *)
Lemma pairing_image_answers_waiting_start_witness :
  socks (after s1_started) !! 0 = Some {| cl_sessionId := "s1"; cl_socketId := None |}
  /\ intervals (after s1_started) !! 0 =
       Some {| iv_res := 1; iv_sessionId := "s1"; attempts := 0 |}
  /\ run loggedOut_sample (after s1_started)
         [OnConnectionUpdate 0 qr_update;
          Settle 0 (Resolved "data:image/png;base64,AAAA");
          IntervalFires 0] =
       Some (set_intervals []
               (set_qrCodes (<["s1" := "data:image/png;base64,AAAA"]>
                               (qrCodes (after s1_started))) (after s1_started)),
             [CallToDataURL "2@pairing";
              Reply 1 200 (JObj [("qrCode", JStr "data:image/png;base64,AAAA")])]).
Proof.
  split; [reflexivity |]. split; [reflexivity |].
  apply (pairing_image_answers_waiting_start loggedOut_sample (after s1_started) 0
           {| cl_sessionId := "s1"; cl_socketId := None |} 0
           {| iv_res := 1; iv_sessionId := "s1"; attempts := 0 |}
           qr_update "2@pairing" "data:image/png;base64,AAAA");
    try reflexivity; discriminate.
Defined.

(** "s1" opens while its start request waits with a pairing image stored. *)
Lemma open_clears_pairing_image_witness :
  socks (after s1_pairing) !! 0 = Some {| cl_sessionId := "s1"; cl_socketId := None |}
  /\ qrCodes (after s1_pairing) !! "s1" = Some "data:image/png;base64,AAAA"
  /\ exists s',
       run loggedOut_sample (after s1_pairing)
           [OnConnectionUpdate 0 open_update; IntervalFires 0] = Some (s', [])
       /\ qrCodes s' !! "s1" = None
       /\ connections s' = connections (after s1_pairing).
Proof.
  split; [reflexivity |]. split; [reflexivity |].
  exact (open_clears_pairing_image loggedOut_sample (after s1_pairing) 0
           {| cl_sessionId := "s1"; cl_socketId := None |} 0
           {| iv_res := 1; iv_sessionId := "s1"; attempts := 0 |}
           open_update eq_refl eq_refl eq_refl eq_refl eq_refl).
Defined.

(** Two drains of "s1" around one batch. *)
Lemma drain_returns_what_arrived_since_witness :
  connections (after s1_started) !! "s1" = Some 0
  /\ exists s' out,
       run loggedOut_sample (after s1_started)
           [GetMessages 7 "s1"; OnMessagesUpsert 0 mixed_batch; GetMessages 8 "s1"] =
         Some (s', out)
       /\ last out =
            Some (Reply 8 200
                    (JObj [("messages",
                            JMessages [inbound_message 0; inbound_message 1])]))
       /\ recentMessages s' !! "s1" = Some [].
Proof.
  split; [reflexivity |].
  exact (drain_returns_what_arrived_since loggedOut_sample (after s1_started) 0 0
           {| cl_sessionId := "s1"; cl_socketId := None |} 7 8 [mixed_batch]
           eq_refl eq_refl).
Defined.

(** "s1", holding two messages, closed by a restart request. *)
Lemma reconnect_keeps_buffer_witness :
  statusCode restart_close <> Some loggedOut_sample
  /\ connections (after s1_two_messages) !! "s1" = Some 0
  /\ exists s2 out,
       run loggedOut_sample (after s1_two_messages)
           [OnConnectionUpdate 0 restart_close; Settle 0 (Resolved "");
            GetMessages 7 "s1"] = Some (s2, out)
       /\ last out =
            Some (Reply 7 200
                    (JObj [("messages",
                            JMessages [inbound_message 0; inbound_message 1])]))
       /\ connections s2 !! "s1" = Some 1.
Proof.
  assert (Hne : statusCode restart_close <> Some loggedOut_sample) by discriminate.
  split; [exact Hne |]. split; [reflexivity |].
  exact (proj2 (reconnect_keeps_buffer loggedOut_sample (after s1_two_messages) 0 0
                  {| cl_sessionId := "s1"; cl_socketId := None |} restart_close 7 ""
                  eq_refl eq_refl eq_refl Hne eq_refl)).
Defined.

(** A drain of a session nobody started, and the timer of "s1" giving up. *)
Lemma answer_statuses_witness :
  (step loggedOut_sample init (GetMessages 7 "s1") =
     Some (init, [Reply 7 404 (JObj [("error", JStr "Sessão não encontrada")])])
   /\ exists sessionId,
        event_session init (GetMessages 7 "s1") = Some sessionId
        /\ connections init !! sessionId = None /\ init = init)
  /\ (step loggedOut_sample (after s1_waited) (IntervalFires 0) =
        Some (set_intervals [] (after s1_waited), [Reply 1 408 timeout_body])
      /\ exists i iv,
           IntervalFires 0 = IntervalFires i
           /\ intervals (after s1_waited) !! i = Some iv
           /\ attempts iv >= 10
           /\ truthy_opt (qrCodes (after s1_waited) !! iv_sessionId iv) = false).
Proof.
  assert (Hmissing : step loggedOut_sample init (GetMessages 7 "s1") =
            Some (init, [Reply 7 404 (JObj [("error", JStr "Sessão não encontrada")])]))
    by reflexivity.
  assert (Hgiveup : step loggedOut_sample (after s1_waited) (IntervalFires 0) =
            Some (set_intervals [] (after s1_waited), [Reply 1 408 timeout_body]))
    by (vm_compute; reflexivity).
  split; (split; [assumption |]).
  - refine (proj1 (proj2 (answer_statuses loggedOut_sample _ _ _ _ 7 404
                            (JObj [("error", JStr "Sessão não encontrada")])
                            Hmissing _)) eq_refl).
    apply list_elem_of_singleton. reflexivity.
  - refine (proj2 (proj2 (answer_statuses loggedOut_sample _ _ _ _ 1 408 timeout_body
                            Hgiveup _)) eq_refl).
    apply list_elem_of_singleton. reflexivity.
Defined.

